(** * nuke_from_orbit/utils/gke_cluster.py: the cloud resource facade

    A shallow embedding of the helper functions of [gke_cluster.py] and the
    properties of the requests they build, the values they return, the errors
    they let through and the kubeconfig file they write.

    The functions receive an already constructed client.  A client is modelled
    as a record of handlers over an abstract remote state; every remote call a
    function makes is appended to a trace, so that "exactly one request, with
    this body" is a statement about the trace.  Python exceptions are the left
    summand of the result. *)

From Stdlib Require Import ZArith Ascii.
From stdpp Require Import base strings gmap list.

Local Open Scope Z_scope.
Set Warnings "-register-all".

(** ** Python values

    Request bodies and Compute responses are plain Python dicts.  A dict keeps
    insertion order, so it is an association list. *)

Inductive pyval : Type :=
| PNone
| PBool (b : bool)
| PInt (z : Z)
| PStr (s : string)
| PList (l : list pyval)
| PDict (d : list (string * pyval)).

(** A [pathlib.Path], as its components. *)
Definition Path : Type := list string.

(** [Path.joinpath] with the further components. *)
Definition joinpath (p : Path) (other : list string) : Path := p ++ other.

(** The exceptions that reach the functions of the module. *)
Inductive exn : Type :=
| HttpError (status : Z) (reason : string)
| GoogleAPICallError (code : Z) (message : string)
| KeyError (key : string)
| TypeError (message : string)
| OSError (filename : Path)
| TemplateSyntaxError (message : string).

Fixpoint dict_get (d : list (string * pyval)) (key : string) : option pyval :=
  match d with
  | [] => None
  | (k, v) :: d' => if String.eqb k key then Some v else dict_get d' key
  end.

(** [obj[key]] for a string key: a dict answers or raises [KeyError], any
    other value raises [TypeError]. *)
Definition py_getitem (obj : pyval) (key : string) : exn + pyval :=
  match obj with
  | PDict d =>
      match dict_get d key with
      | Some v => inr v
      | None => inl (KeyError key)
      end
  | _ => inl (TypeError "object is not subscriptable with a str key")
  end.

(** ** googleapiclient: Compute requests

    [client.globalAddresses().insert(project=..., body=...)] and its siblings
    only build a request object; [request.execute()] sends it. *)

Inductive ComputeRequest : Type :=
| globalAddresses_insert (project : string) (body : pyval)
| globalAddresses_delete (project : string) (address : string)
| globalAddresses_get (project : string) (address : string)
| globalOperations_get (project : string) (operation : string).

(** ** google.cloud.container_v1 *)

Module container_v1.

Module types.
Inductive Request : Type :=
| CreateClusterRequest (parent : string) (cluster : pyval)
| DeleteClusterRequest (name : string)
| GetOperationRequest (name : string)
| GetClusterRequest (name : string).
End types.

(** [Operation.Status] of the GKE API and the [.name] of an enum member. *)
Module Status.
Inductive t : Type :=
| STATUS_UNSPECIFIED | PENDING | RUNNING | DONE | ABORTING.

Definition name (s : t) : string :=
  match s with
  | STATUS_UNSPECIFIED => "STATUS_UNSPECIFIED"
  | PENDING => "PENDING"
  | RUNNING => "RUNNING"
  | DONE => "DONE"
  | ABORTING => "ABORTING"
  end.
End Status.

Module Operation.
Record t : Type := mk {
  name : string;
  status : Status.t;
  detail : string
}.
End Operation.

Module MasterAuth.
Record t : Type := mk { cluster_ca_certificate : string }.
End MasterAuth.

Module Cluster.
Record t : Type := mk {
  master_auth : MasterAuth.t;
  endpoint : string
}.
End Cluster.

End container_v1.

Import container_v1.

(** ** jinja2: the fragment a kubeconfig template uses

    Literal text and [{{ name }}] placeholders.  [Template(source)] splits the
    source into nodes; [render] writes each placeholder's value as it is
    (autoescape is off for [Template]; an undefined name prints nothing).
    A tag outside the fragment ([{% %}], [{# #}], an expression that is not a
    bare name) and an unclosed [{{] are reported as [TemplateSyntaxError]. *)

Module jinja2.

Inductive node : Type :=
| TemplateData (data : string)
| Name (name : string).

#[global] Instance node_eq_dec : EqDecision node.
Proof. solve_decision. Defined.

Definition is_blank (c : ascii) : bool :=
  (c =? " ")%char || (c =? "009")%char || (c =? "010")%char || (c =? "013")%char.

Fixpoint lstrip (s : string) : string :=
  match s with
  | String c s' => if is_blank c then lstrip s' else s
  | EmptyString => EmptyString
  end.

Definition strip (s : string) : string :=
  String.rev (lstrip (String.rev (lstrip s))).

Definition is_name_start (c : ascii) : bool :=
  let n := nat_of_ascii c in
  ((65 <=? n) && (n <=? 90) || (97 <=? n) && (n <=? 122) || (n =? 95))%nat.

Definition is_name_char (c : ascii) : bool :=
  let n := nat_of_ascii c in
  (is_name_start c || (48 <=? n) && (n <=? 57))%nat.

Fixpoint all_name_chars (s : string) : bool :=
  match s with
  | EmptyString => true
  | String c s' => is_name_char c && all_name_chars s'
  end.

Definition is_constant (s : string) : bool :=
  bool_decide (s ∈ ["true"; "false"; "none"; "True"; "False"; "None"]).

(** The expression between [{{] and [}}], when it is a bare variable name. *)
Definition parse_name (expr : string) : option string :=
  match strip expr with
  | EmptyString => None
  | String c s' as x =>
      if is_name_start c && all_name_chars s' && negb (is_constant x)
      then Some x else None
  end.

Definition data_node (rev_buf : string) : list node :=
  match rev_buf with
  | EmptyString => []
  | _ => [TemplateData (String.rev rev_buf)]
  end.

(** One pass over the source; [in_var] says whether a [{{] is open and
    [rev_buf] holds the characters read since the last delimiter. *)
Fixpoint tokenize (in_var : bool) (rev_buf : string) (s : string)
  : exn + list node :=
  match s with
  | EmptyString =>
      if in_var then inl (TemplateSyntaxError "unexpected end of template")
      else inr (data_node rev_buf)
  | String c tl =>
      match tl with
      | String c' rest =>
          if in_var then
            if (c =? "}")%char && (c' =? "}")%char then
              match parse_name (String.rev rev_buf) with
              | Some x =>
                  match tokenize false EmptyString rest with
                  | inr ns => inr (Name x :: ns)
                  | inl e => inl e
                  end
              | None => inl (TemplateSyntaxError "expected a variable name")
              end
            else tokenize true (String c rev_buf) tl
          else
            if (c =? "{")%char && (c' =? "{")%char then
              match tokenize true EmptyString rest with
              | inr ns => inr (data_node rev_buf ++ ns)
              | inl e => inl e
              end
            else if (c =? "{")%char && ((c' =? "%")%char || (c' =? "#")%char)
            then inl (TemplateSyntaxError "statement or comment tag")
            else tokenize false (String c rev_buf) tl
      | EmptyString => tokenize in_var (String c rev_buf) tl
      end
  end.

(** The lexer joins the lines of the source with a line feed and drops one
    trailing newline ([keep_trailing_newline] is off). *)
Fixpoint normalize_newlines (s : string) : string :=
  match s with
  | EmptyString => EmptyString
  | String c tl =>
      if (c =? "013")%char then
        match tl with
        | String c' rest =>
            if (c' =? "010")%char then String "010" (normalize_newlines rest)
            else String "010" (normalize_newlines tl)
        | EmptyString => String "010" EmptyString
        end
      else String c (normalize_newlines tl)
  end.

Definition drop_trailing_newline (s : string) : string :=
  match String.rev s with
  | String c r => if (c =? "010")%char then String.rev r else s
  | EmptyString => s
  end.

(** [Template(source)] *)
Definition Template (source : string) : exn + list node :=
  tokenize false EmptyString (drop_trailing_newline (normalize_newlines source)).

Definition render_node (vals : gmap string string) (n : node) : string :=
  match n with
  | TemplateData data => data
  | Name x => default EmptyString (vals !! x)
  end.

(** [template.render] on the values given as keyword arguments. *)
Fixpoint render (t : list node) (vals : gmap string string) : string :=
  match t with
  | [] => EmptyString
  | n :: t' => render_node vals n +:+ render t' vals
  end.

End jinja2.

(** ** The world the functions run in

    [Remote] is the state of the cloud services.  A client handler reads and
    changes only that; the local files are reached only through [read_text],
    [open_w] and [write].  The trace records every request sent and every
    file operation, in order. *)

Inductive Event : Type :=
| Execute (request : ComputeRequest)
| Rpc_create_cluster (request : types.Request)
| Rpc_delete_cluster (request : types.Request)
| Rpc_get_operation (request : types.Request)
| Rpc_get_cluster (request : types.Request)
| File_read_text (p : Path)
| File_open_w (p : Path)
| File_write (p : Path) (data : string).

Record World {Remote : Type} : Type := mkWorld {
  remote : Remote;
  files : gmap Path string;
  unwritable : gset Path;
  trace : list Event
}.
Arguments World : clear implicits.

(** The client built by [googleapiclient.discovery.build("compute", "v1")]:
    what the service answers to an executed request. *)
Record ComputeClient {Remote : Type} : Type := {
  execute : ComputeRequest -> Remote -> (exn + pyval) * Remote
}.
Arguments ComputeClient : clear implicits.

(** [container_v1.ClusterManagerClient] *)
Record ClusterManagerClient {Remote : Type} : Type := {
  create_cluster : types.Request -> Remote -> (exn + Operation.t) * Remote;
  delete_cluster : types.Request -> Remote -> (exn + Operation.t) * Remote;
  get_operation : types.Request -> Remote -> (exn + Operation.t) * Remote;
  get_cluster : types.Request -> Remote -> (exn + Cluster.t) * Remote
}.
Arguments ClusterManagerClient : clear implicits.

Section Monad.

Context {Remote : Type}.

(** A computation that may raise and may change the world. *)
Definition M (A : Type) : Type := World Remote -> (exn + A) * World Remote.

Definition ret {A} (a : A) : M A := fun w => (inr a, w).

Definition raise {A} (e : exn) : M A := fun w => (inl e, w).

Definition bind {A B} (c : M A) (k : A -> M B) : M B :=
  fun w =>
    match c w with
    | (inr a, w') => k a w'
    | (inl e, w') => (inl e, w')
    end.

Definition lift {A} (r : exn + A) : M A :=
  match r with
  | inr a => ret a
  | inl e => raise e
  end.

Definition log (ev : Event) : M unit :=
  fun w => (inr tt, mkWorld _ (remote w) (files w) (unwritable w) (trace w ++ [ev])).

(** Run a client handler on the remote state. *)
Definition remote_call {A} (h : Remote -> (exn + A) * Remote) : M A :=
  fun w =>
    let '(r, s) := h (remote w) in
    (r, mkWorld _ s (files w) (unwritable w) (trace w)).

Definition set_file (p : Path) (data : string) : M unit :=
  fun w => (inr tt, mkWorld _ (remote w) (<[p := data]> (files w)) (unwritable w) (trace w)).

End Monad.

Notation "'let!' x ':=' c 'in' k" := (bind c (fun x => k))
  (at level 10, x name, c at level 100, k at level 200).

Section Facade.

Context {Remote : Type}.

(** [Path(__file__).parent], the directory of the module. *)
Variable script_path : Path.

(** [Path.resolve]: the absolute path with the symbolic links followed. *)
Variable resolve : Path -> Path.

(** *** Primitives *)

(** [request.execute()] *)
Definition request_execute (client : ComputeClient Remote)
    (request : ComputeRequest) : M pyval :=
  let! _ := log (Execute request) in
  remote_call (execute client request).

(** A method of the cluster manager client called with [request=request]. *)
Definition rpc {A} (ev : types.Request -> Event)
    (method : types.Request -> Remote -> (exn + A) * Remote)
    (request : types.Request) : M A :=
  let! _ := log (ev request) in
  remote_call (method request).

(** [Path.read_text()] *)
Definition read_text (p : Path) : M string :=
  let! _ := log (File_read_text p) in
  fun w : World Remote =>
    match files w !! p with
    | Some data => (inr data, w)
    | None => (inl (OSError p), w)
    end.

(** [open(p, "w")]: the file is created or truncated. *)
Definition open_w (p : Path) : M unit :=
  let! _ := log (File_open_w p) in
  fun w : World Remote =>
    if decide (p ∈ unwritable w) then (inl (OSError p), w)
    else set_file p EmptyString w.

(** [f.write(data)] on a file opened by [open_w]: written after what the
    file holds since it was opened.  This is the write that completes; a
    write or a close cut short after the file was truncated (a full disk, an
    interrupt) is outside the model, so the properties below speak of the
    output file only for runs that raise before the write or that return. *)
Definition write (p : Path) (data : string) : M unit :=
  let! _ := log (File_write p data) in
  fun w : World Remote => set_file p (default EmptyString (files w !! p) +:+ data) w.

(** *** The functions of the module *)

Definition create_global_ip (name project : string)
    (client : ComputeClient Remote) : M pyval :=
  let body := PDict [("name", PStr name)] in
  let request := globalAddresses_insert project body in
  let! response := request_execute client request in
  lift (py_getitem response "name").

Definition delete_global_ip (name project : string)
    (client : ComputeClient Remote) : M pyval :=
  let request := globalAddresses_delete project name in
  let! response := request_execute client request in
  lift (py_getitem response "name").

Definition compute_task_status (task_name project : string)
    (client : ComputeClient Remote) : M pyval :=
  let request := globalOperations_get project task_name in
  let! response := request_execute client request in
  lift (py_getitem response "status").

Definition fetch_ip_address (name project : string)
    (client : ComputeClient Remote) : M pyval :=
  let request := globalAddresses_get project name in
  let! response := request_execute client request in
  lift (py_getitem response "address").

Definition setup_gke_cluster (name project zone : string) (node_count : Z)
    (machine_type : string) (client : ClusterManagerClient Remote) : M string :=
  let parent := "projects/" +:+ project +:+ "/locations/" +:+ zone in
  let cluster :=
    PDict [
      ("name", PStr name);
      ("release_channel", PDict [("channel", PStr "REGULAR")]);
      ("node_pools", PList [
        PDict [
          ("name", PStr "load-test-pool");
          ("initial_node_count", PInt node_count);
          ("config", PDict [
            ("machine_type", PStr machine_type);
            ("oauth_scopes", PList [
              PStr "https://www.googleapis.com/auth/cloud-platform"
            ])
          ])
        ]
      ])
    ] in
  let request := types.CreateClusterRequest parent cluster in
  let! task := rpc Rpc_create_cluster (create_cluster client) request in
  ret (Operation.name task).

Definition delete_gke_cluster (name project zone : string)
    (client : ClusterManagerClient Remote) : M string :=
  let cluster_name :=
    "projects/" +:+ project +:+ "/locations/" +:+ zone +:+ "/clusters/" +:+ name in
  let request := types.DeleteClusterRequest cluster_name in
  let! task := rpc Rpc_delete_cluster (delete_cluster client) request in
  ret (Operation.name task).

Definition gke_task_status (name project zone : string)
    (client : ClusterManagerClient Remote) : M Operation.t :=
  let task_name :=
    "projects/" +:+ project +:+ "/locations/" +:+ zone +:+ "/operations/" +:+ name in
  let request := types.GetOperationRequest task_name in
  let! task_status := rpc Rpc_get_operation (get_operation client) request in
  ret task_status.

Definition setup_cluster_auth_file (name project zone : string)
    (client : ClusterManagerClient Remote) : M Path :=
  let cluster_name :=
    "projects/" +:+ project +:+ "/locations/" +:+ zone +:+ "/clusters/" +:+ name in
  let request := types.GetClusterRequest cluster_name in
  let! cluster := rpc Rpc_get_cluster (get_cluster client) request in
  let ca_cert := MasterAuth.cluster_ca_certificate (Cluster.master_auth cluster) in
  let endpoint := Cluster.endpoint cluster in
  let vals : gmap string string :=
    {[ "name" := name; "project" := project; "zone" := zone;
       "ca_cert" := ca_cert; "endpoint" := endpoint ]} in
  let kubeconfig_template := joinpath script_path ["templates"; "kubeconfig.yaml"] in
  let kubeconfig_rendered := joinpath script_path ["rendered"; "kubeconfig.yaml"] in
  let! template := read_text kubeconfig_template in
  let! compiled := lift (jinja2.Template template) in
  let rendered := jinja2.render compiled vals in
  let! _ := open_w kubeconfig_rendered in
  let! _ := write kubeconfig_rendered rendered in
  ret (resolve kubeconfig_rendered).

End Facade.

(** ** Vocabulary of the properties *)

(** The three states of a Compute operation. *)
Definition compute_statuses : list pyval :=
  [PStr "PENDING"; PStr "RUNNING"; PStr "DONE"].

Fixpoint is_prefix (p s : string) : bool :=
  match p, s with
  | EmptyString, _ => true
  | String a p', String b s' => (a =? b)%char && is_prefix p' s'
  | String _ _, EmptyString => false
  end.

(** [sub in s] of Python: [sub] occurs in [s] as it is. *)
Fixpoint contains (s sub : string) : bool :=
  is_prefix sub s ||
  match s with
  | String _ s' => contains s' sub
  | EmptyString => false
  end.

(** The world after a remote call that left the remote state [s]. *)
Definition after_call {Remote} (w : World Remote) (s : Remote) (ev : Event)
  : World Remote :=
  mkWorld _ s (files w) (unwritable w) (trace w ++ [ev]).

(** The world with [data] in the file at [p]. *)
Definition with_file {Remote} (w : World Remote) (p : Path) (data : string)
  : World Remote :=
  mkWorld _ (remote w) (<[p := data]> (files w)) (unwritable w) (trace w).

(** The computation [f] sends the request [ev] to the handler [h] and lets an
    error of [h] through: the same exception, after that one request, with the
    files as they were. *)
Definition propagates {Remote A B} (ev : Event)
    (h : Remote -> (exn + A) * Remote) (f : @M Remote B) : Prop :=
  forall w e s, h (remote w) = (inl e, s) -> f w = (inl e, after_call w s ev).

(** The path of a cluster and of one of its operations. *)
Definition cluster_path (project zone name : string) : string :=
  "projects/" +:+ project +:+ "/locations/" +:+ zone +:+ "/clusters/" +:+ name.

Definition operation_path (project zone name : string) : string :=
  "projects/" +:+ project +:+ "/locations/" +:+ zone +:+ "/operations/" +:+ name.

(** The values the kubeconfig template is rendered with. *)
Definition kubeconfig_vals (name project zone : string) (cluster : Cluster.t)
  : gmap string string :=
  {[ "name" := name; "project" := project; "zone" := zone;
     "ca_cert" := MasterAuth.cluster_ca_certificate (Cluster.master_auth cluster);
     "endpoint" := Cluster.endpoint cluster ]}.

(** The computation [f] sends the one request [ev] in every run, whatever the
    answer, and leaves the local files alone. *)
Definition one_request {Remote A} (ev : Event) (f : @M Remote A) : Prop :=
  forall w,
    trace (f w).2 = trace w ++ [ev]
    /\ files (f w).2 = files w
    /\ unwritable (f w).2 = unwritable w.

(** No [/] in a path component. *)
Fixpoint no_slash (s : string) : bool :=
  match s with
  | EmptyString => true
  | String c s' => negb (c =? "/")%char && no_slash s'
  end.

(** ** A small cloud to run the functions against *)

Module Scenario.

Record Cloud : Type := mkCloud {
  addresses : list string;
  clusters : list string
}.

Definition operation (name status : string) : pyval :=
  PDict [("name", PStr name); ("status", PStr status)].

Definition http (status : Z) (reason : string) : exn + pyval :=
  inl (HttpError status reason).

Definition compute : ComputeClient Cloud := {|
  execute request c :=
    match request with
    | globalAddresses_insert _ body =>
        match py_getitem body "name" with
        | inr (PStr n) =>
            if bool_decide (n ∈ addresses c) then (http 409 "alreadyExists", c)
            else (inr (operation ("operation-insert-" +:+ n) "RUNNING"),
                  mkCloud (n :: addresses c) (clusters c))
        | _ => (http 400 "invalid", c)
        end
    | globalAddresses_delete _ n =>
        if bool_decide (n ∈ addresses c)
        then (inr (operation ("operation-delete-" +:+ n) "RUNNING"),
              mkCloud (filter (fun a => a <> n) (addresses c)) (clusters c))
        else (http 404 "notFound", c)
    | globalAddresses_get _ n =>
        if bool_decide (n ∈ addresses c)
        then (inr (PDict [("name", PStr n); ("address", PStr "34.120.7.21");
                          ("status", PStr "RESERVED")]), c)
        else (http 404 "notFound", c)
    | globalOperations_get _ op => (inr (operation op "DONE"), c)
    end
|}.

(** A service that answers every operation read with a status of its own. *)
Definition odd_compute : ComputeClient Cloud := {|
  execute request c := (inr (operation "op" "ABORTED"), c)
|}.

Definition api_error {A} (code : Z) (message : string) : exn + A :=
  inl (GoogleAPICallError code message).

Definition gke : ClusterManagerClient Cloud := {|
  create_cluster request c :=
    match request with
    | types.CreateClusterRequest parent cluster =>
        match py_getitem cluster "name" with
        | inr (PStr n) =>
            let path := parent +:+ "/clusters/" +:+ n in
            if bool_decide (path ∈ clusters c) then (api_error 409 "AlreadyExists", c)
            else (inr (Operation.mk "operation-create-1" Status.RUNNING ""),
                  mkCloud (addresses c) (path :: clusters c))
        | _ => (api_error 400 "InvalidArgument", c)
        end
    | _ => (api_error 400 "InvalidArgument", c)
    end;
  delete_cluster request c :=
    match request with
    | types.DeleteClusterRequest path =>
        if bool_decide (path ∈ clusters c)
        then (inr (Operation.mk "operation-delete-1" Status.RUNNING ""),
              mkCloud (addresses c) (filter (fun a => a <> path) (clusters c)))
        else (api_error 404 "NotFound", c)
    | _ => (api_error 400 "InvalidArgument", c)
    end;
  get_operation request c :=
    match request with
    | types.GetOperationRequest path =>
        (inr (Operation.mk path Status.DONE "Deploying"), c)
    | _ => (api_error 400 "InvalidArgument", c)
    end;
  get_cluster request c :=
    match request with
    | types.GetClusterRequest path =>
        if bool_decide (path ∈ clusters c)
        then (inr (Cluster.mk (MasterAuth.mk "LS0tLS1CRUdJTiBDRVJUSUZJQ0FURS0tLS0t")
                     "35.224.10.4"), c)
        else (api_error 404 "NotFound", c)
    | _ => (api_error 400 "InvalidArgument", c)
    end
|}.

Definition script_path : Path := ["/"; "srv"; "nuke_from_orbit"; "utils"].

Definition template_path : Path := joinpath script_path ["templates"; "kubeconfig.yaml"].

Definition rendered_path : Path := joinpath script_path ["rendered"; "kubeconfig.yaml"].

Definition resolve (p : Path) : Path := p.

Definition kubeconfig_template : string :=
"apiVersion: v1
kind: Config
current-context: {{ name }}
clusters:
- name: {{ name }}
  cluster:
    server: https://{{ endpoint }}
    certificate-authority-data: {{ ca_cert }}
contexts:
- name: {{ name }}
  context:
    cluster: {{ name }}
    user: {{ project }}-{{ zone }}
".

(** The nodes [jinja2.Template] makes of the template. *)
Definition kubeconfig_nodes : list jinja2.node :=
  Eval vm_compute in
    match jinja2.Template kubeconfig_template with
    | inr nodes => nodes
    | inl _ => []
    end.

Definition broken_template : string := "server: https://{{ endpoint".

Definition cloud : Cloud :=
  mkCloud ["ip0"] ["projects/p/locations/us-central1-a/clusters/lt"].

(** The module directory with the template in place and nothing rendered. *)
Definition world : World Cloud :=
  mkWorld _ cloud {[ template_path := kubeconfig_template ]} ∅ [].

(** The same with an earlier kubeconfig in [rendered]. *)
Definition world_with_old_file (tpl : option string) : World Cloud :=
  mkWorld _ cloud
    (match tpl with
     | Some t => {[ template_path := t; rendered_path := "old kubeconfig" ]}
     | None => {[ rendered_path := "old kubeconfig" ]}
     end) ∅ [].

End Scenario.

(** The same cloud seen from a module directory whose [rendered] file cannot
    be opened for writing. *)
Module ReadOnly.

Definition world : World Scenario.Cloud :=
  mkWorld _ Scenario.cloud
    {[ Scenario.template_path := Scenario.kubeconfig_template;
       Scenario.rendered_path := "old kubeconfig" ]}
    {[ Scenario.rendered_path ]} [].

End ReadOnly.

(** Two services on which the address is still being reserved and its insert
    operation is RUNNING.  Neither refuses a read of the address: [compute]
    answers with a descriptor that has no [address] yet, [eager_compute] with
    one that already has it. *)
Module Provisioning.

Definition answer (early : list (string * pyval)) (request : ComputeRequest)
  : pyval :=
  match request with
  | globalAddresses_insert _ _ => Scenario.operation "operation-insert-ip1" "RUNNING"
  | globalAddresses_delete _ n => Scenario.operation ("operation-delete-" +:+ n) "RUNNING"
  | globalAddresses_get _ n =>
      PDict ([("name", PStr n); ("status", PStr "RESERVING")] ++ early)
  | globalOperations_get _ op => Scenario.operation op "RUNNING"
  end.

Definition compute : ComputeClient unit := {|
  execute request c := (inr (answer [] request), c)
|}.

Definition eager_compute : ComputeClient unit := {|
  execute request c := (inr (answer [("address", PStr "34.120.7.21")] request), c)
|}.

Definition world : World unit := mkWorld _ tt ∅ ∅ [].

End Provisioning.

(** ** How the primitives run *)

(** An event of one kind is not in a short list of events of other kinds. *)
Ltac not_an_event :=
  let H := fresh "H" in
  intros H;
  repeat (apply elem_of_cons in H as [H | H]; [discriminate H |]);
  by apply elem_of_nil in H.

Section Runs.

Context {Remote : Type}.

Lemma request_execute_run (client : ComputeClient Remote) request w :
  request_execute client request w =
    ((execute client request (remote w)).1,
     after_call w (execute client request (remote w)).2 (Execute request)).
Proof.
  unfold request_execute, bind, log, remote_call, after_call; simpl.
  destruct (execute client request (remote w)) as [r s]; reflexivity.
Qed.

Lemma rpc_run {A} ev (method : types.Request -> Remote -> (exn + A) * Remote)
    request w :
  rpc ev method request w =
    ((method request (remote w)).1,
     after_call w (method request (remote w)).2 (ev request)).
Proof.
  unfold rpc, bind, log, remote_call, after_call; simpl.
  destruct (method request (remote w)) as [r s]; reflexivity.
Qed.

(** A Compute wrapper sends one request and indexes the answer. *)
Lemma execute_getitem_run (client : ComputeClient Remote) request key w :
  (let! response := request_execute client request in
   lift (py_getitem response key)) w =
    (match (execute client request (remote w)).1 with
     | inr response => py_getitem response key
     | inl e => inl e
     end,
     after_call w (execute client request (remote w)).2 (Execute request)).
Proof.
  unfold bind. rewrite request_execute_run.
  destruct (execute client request (remote w)) as [[e | response] s]; simpl;
    [reflexivity |].
  destruct (py_getitem response key); reflexivity.
Qed.

(** A cluster manager wrapper sends one request and reads [task.name]. *)
Lemma rpc_name_run ev
    (method : types.Request -> Remote -> (exn + Operation.t) * Remote)
    request w :
  (let! task := rpc ev method request in ret (Operation.name task)) w =
    (match (method request (remote w)).1 with
     | inr task => inr (Operation.name task)
     | inl e => inl e
     end,
     after_call w (method request (remote w)).2 (ev request)).
Proof.
  unfold bind. rewrite rpc_run.
  destruct (method request (remote w)) as [[e | task] s]; reflexivity.
Qed.

Lemma read_text_run p (w : World Remote) :
  read_text p w =
    (match files w !! p with
     | Some data => inr data
     | None => inl (OSError p)
     end,
     mkWorld _ (remote w) (files w) (unwritable w) (trace w ++ [File_read_text p])).
Proof.
  unfold read_text, bind, log; simpl. destruct (files w !! p); reflexivity.
Qed.

Lemma open_w_run p (w : World Remote) :
  open_w p w =
    if decide (p ∈ unwritable w)
    then (inl (OSError p),
          mkWorld _ (remote w) (files w) (unwritable w) (trace w ++ [File_open_w p]))
    else (inr tt,
          mkWorld _ (remote w) (<[p := EmptyString]> (files w)) (unwritable w)
            (trace w ++ [File_open_w p])).
Proof.
  unfold open_w, bind, log, set_file; simpl.
  destruct (decide (p ∈ unwritable w)); reflexivity.
Qed.

Lemma write_run p data (w : World Remote) :
  write p data w =
    (inr tt,
     mkWorld _ (remote w)
       (<[p := default EmptyString (files w !! p) +:+ data]> (files w))
       (unwritable w) (trace w ++ [File_write p data])).
Proof. reflexivity. Qed.

Lemma py_getitem_dict d key v :
  dict_get d key = Some v -> py_getitem (PDict d) key = inr v.
Proof. intros H. simpl. rewrite H. reflexivity. Qed.

End Runs.

(** ** The Compute wrappers *)

Section Compute.

Context {Remote : Type}.
Implicit Types (client : ComputeClient Remote) (w : World Remote).

(** C7. [create_global_ip] sends exactly one request, the global-address
    insert under the given project with the body [{"name": name}]; when the
    service answers with a descriptor it returns the descriptor's [name]
    field as the handle, and when the service refuses (name in use, no
    quota) it fails with the service's error. *)
Theorem create_global_ip_one_insert name project client w r s :
  execute client (globalAddresses_insert project (PDict [("name", PStr name)]))
    (remote w) = (r, s) ->
  let out := create_global_ip name project client w in
  trace out.2 =
    trace w ++ [Execute (globalAddresses_insert project (PDict [("name", PStr name)]))]
  /\ remote out.2 = s
  /\ files out.2 = files w
  /\ (forall d handle,
        r = inr (PDict d) -> dict_get d "name" = Some handle -> out.1 = inr handle)
  /\ (forall e, r = inl e -> out.1 = inl e).
Proof.
  intros Hr out. subst out. unfold create_global_ip.
  rewrite execute_getitem_run, Hr. simpl.
  repeat split; try reflexivity.
  - intros d handle -> Hd. by apply py_getitem_dict.
  - by intros e ->.
Qed.

(** C3. [compute_task_status] performs exactly one status read and returns
    the provider's [status] field as it is: one of PENDING, RUNNING, DONE
    when the provider's value is one of them, and any other provider value
    reaches the caller unchanged, never turned into one of the three. *)
Theorem compute_task_status_verbatim task_name project client w d v s :
  execute client (globalOperations_get project task_name) (remote w)
    = (inr (PDict d), s) ->
  dict_get d "status" = Some v ->
  let out := compute_task_status task_name project client w in
  trace out.2 = trace w ++ [Execute (globalOperations_get project task_name)]
  /\ out.1 = inr v
  /\ (v ∈ compute_statuses -> exists x, out.1 = inr x /\ x ∈ compute_statuses)
  /\ (v ∉ compute_statuses -> forall x, out.1 = inr x -> x = v /\ x ∉ compute_statuses).
Proof.
  intros Hr Hd out. subst out. unfold compute_task_status.
  rewrite execute_getitem_run, Hr. simpl. rewrite Hd.
  repeat split; try reflexivity.
  - intros Hv. by exists v.
  - congruence.
  - congruence.
Qed.

(** C8. [fetch_ip_address] sends one read of the named address; from the
    descriptor of a provisioned address it returns the [address] field as it
    is, and when the service refuses the read with an error (a 4xx) it fails
    with that error.  The function makes no readiness test of its own. *)
Theorem fetch_ip_address_value_or_error name project client w r s :
  execute client (globalAddresses_get project name) (remote w) = (r, s) ->
  let out := fetch_ip_address name project client w in
  trace out.2 = trace w ++ [Execute (globalAddresses_get project name)]
  /\ (forall d ip,
        r = inr (PDict d) -> dict_get d "address" = Some (PStr ip) ->
        out.1 = inr (PStr ip))
  /\ (forall status reason,
        r = inl (HttpError status reason) -> out.1 = inl (HttpError status reason)).
Proof.
  intros Hr out. subst out. unfold fetch_ip_address.
  rewrite execute_getitem_run, Hr. simpl.
  repeat split.
  - intros d ip -> Hd. by apply py_getitem_dict.
  - by intros status reason ->.
Qed.

End Compute.

(** ** The cluster wrappers *)

Section Clusters.

Context {Remote : Type}.
Implicit Types (client : ClusterManagerClient Remote) (w : World Remote).

(** C1. [setup_gke_cluster] sends one creation request whose parent is
    [projects/{project}/locations/{zone}] and whose cluster has the release
    channel REGULAR and a [node_pools] list of exactly one pool, named
    [load-test-pool], with the given node count and machine type and the
    single OAuth scope [cloud-platform]; it returns the [name] of the
    operation the service answers with. *)
Theorem setup_gke_cluster_request name project zone node_count machine_type
    client w :
  let parent := "projects/" +:+ project +:+ "/locations/" +:+ zone in
  let out := setup_gke_cluster name project zone node_count machine_type client w in
  exists cluster pool config,
    trace out.2 =
      trace w ++ [Rpc_create_cluster (types.CreateClusterRequest parent cluster)]
    /\ py_getitem cluster "name" = inr (PStr name)
    /\ py_getitem cluster "release_channel" = inr (PDict [("channel", PStr "REGULAR")])
    /\ py_getitem cluster "node_pools" = inr (PList [pool])
    /\ py_getitem pool "name" = inr (PStr "load-test-pool")
    /\ py_getitem pool "initial_node_count" = inr (PInt node_count)
    /\ py_getitem pool "config" = inr config
    /\ py_getitem config "machine_type" = inr (PStr machine_type)
    /\ py_getitem config "oauth_scopes" =
         inr (PList [PStr "https://www.googleapis.com/auth/cloud-platform"])
    /\ out.1 =
         match (create_cluster client (types.CreateClusterRequest parent cluster)
                  (remote w)).1 with
         | inr task => inr (Operation.name task)
         | inl e => inl e
         end.
Proof.
  intros parent out. subst out. unfold setup_gke_cluster.
  rewrite rpc_name_run. simpl.
  eexists _, _, _. repeat split.
Qed.

(** C4. [delete_gke_cluster] addresses its one deletion request at
    [projects/{project}/locations/{zone}/clusters/{name}] and returns the
    [name] of the operation the service answers with. *)
Theorem delete_gke_cluster_path name project zone client w :
  let request :=
    types.DeleteClusterRequest
      ("projects/" +:+ project +:+ "/locations/" +:+ zone +:+ "/clusters/" +:+ name) in
  let out := delete_gke_cluster name project zone client w in
  trace out.2 = trace w ++ [Rpc_delete_cluster request]
  /\ out.1 =
       match (delete_cluster client request (remote w)).1 with
       | inr task => inr (Operation.name task)
       | inl e => inl e
       end.
Proof.
  intros request out. subst out request. unfold delete_gke_cluster.
  rewrite rpc_name_run. split; reflexivity.
Qed.

(** C6. [gke_task_status] reads the operation at
    [projects/{project}/locations/{zone}/operations/{name}] once and hands
    the provider's answer to the caller as it is: the status name (DONE on
    completion) and the detail text are the provider's, not normalised. *)
Theorem gke_task_status_as_provided name project zone client w r s :
  get_operation client
    (types.GetOperationRequest
       ("projects/" +:+ project +:+ "/locations/" +:+ zone +:+ "/operations/" +:+ name))
    (remote w) = (r, s) ->
  let out := gke_task_status name project zone client w in
  trace out.2 =
    trace w ++ [Rpc_get_operation (types.GetOperationRequest
                  ("projects/" +:+ project +:+ "/locations/" +:+ zone
                     +:+ "/operations/" +:+ name))]
  /\ out.1 = r
  /\ (forall op, r = inr op ->
        exists res, out.1 = inr res
          /\ Status.name (Operation.status res) = Status.name (Operation.status op)
          /\ Operation.detail res = Operation.detail op).
Proof.
  intros Hr out. subst out. unfold gke_task_status, bind.
  rewrite rpc_run, Hr. simpl.
  destruct r as [e | op]; simpl; repeat split; try discriminate.
  intros op' [= <-]. by exists op.
Qed.

End Clusters.

(** ** Substrings and rendering *)

Lemma is_prefix_spec p s : is_prefix p s = true <-> exists post, s = p +:+ post.
Proof.
  revert s. induction p as [| a p IH]; intros s; simpl.
  - split; [intros _; by exists s | done].
  - destruct s as [| b s]; simpl.
    + split; [done | intros [post H]; discriminate].
    + rewrite andb_true_iff, IH. split.
      * intros [Hab [post ->]]. apply Ascii.eqb_eq in Hab as ->. by exists post.
      * intros [post [= -> ->]]. split; [apply Ascii.eqb_refl | by exists post].
Qed.

Lemma contains_spec s sub :
  contains s sub = true <-> exists pre post, s = pre +:+ sub +:+ post.
Proof.
  split.
  - induction s as [| c s IH]; simpl; rewrite orb_true_iff; intros [H | H].
    + apply is_prefix_spec in H as [post ->]. by exists EmptyString, post.
    + done.
    + apply is_prefix_spec in H as [post ->]. by exists EmptyString, post.
    + destruct (IH H) as (pre & post & ->). by exists (String c pre), post.
  - intros (pre & post & ->). induction pre as [| c pre IH]; simpl.
    + destruct (sub +:+ post) eqn:E; simpl; apply orb_true_iff; left;
        apply is_prefix_spec; by exists post.
    + apply orb_true_iff. right. exact IH.
Qed.

Lemma string_app_assoc (a b c : string) : (a +:+ b) +:+ c = a +:+ b +:+ c.
Proof.
  induction a as [| x a IH]; [reflexivity |].
  change (String x ((a +:+ b) +:+ c) = String x (a +:+ b +:+ c)).
  by rewrite IH.
Qed.

Lemma contains_app_l s sub pre : contains s sub = true -> contains (pre +:+ s) sub = true.
Proof.
  rewrite !contains_spec. intros (a & b & ->).
  exists (pre +:+ a), b. by rewrite string_app_assoc.
Qed.

Lemma contains_app_r s sub post : contains s sub = true -> contains (s +:+ post) sub = true.
Proof.
  rewrite !contains_spec. intros (a & b & ->).
  exists a, (b +:+ post). by rewrite !string_app_assoc.
Qed.

Lemma string_app_nil_r (s : string) : s +:+ EmptyString = s.
Proof.
  induction s as [| c s IH]; [reflexivity |].
  change (String c (s +:+ EmptyString) = String c s). by rewrite IH.
Qed.

Lemma contains_refl s : contains s s = true.
Proof.
  apply contains_spec. exists EmptyString, EmptyString.
  change (s = s +:+ EmptyString). by rewrite string_app_nil_r.
Qed.

(** A placeholder of the template puts its value in the output as it is. *)
Lemma render_contains nodes (vals : gmap string string) x v :
  jinja2.Name x ∈ nodes -> vals !! x = Some v ->
  contains (jinja2.render nodes vals) v = true.
Proof.
  intros Hin Hv. induction nodes as [| n nodes IH]; [by apply elem_of_nil in Hin |].
  apply elem_of_cons in Hin as [<- | Hin]; simpl.
  - rewrite Hv. simpl. apply contains_app_r, contains_refl.
  - apply contains_app_l, IH, Hin.
Qed.

(** ** The kubeconfig file *)

Section Kubeconfig.

Context {Remote : Type}.
Variable script_path : Path.
Variable resolve : Path -> Path.
Implicit Types (client : ClusterManagerClient Remote) (w : World Remote).

Let template_path : Path := joinpath script_path ["templates"; "kubeconfig.yaml"].
Let rendered_path : Path := joinpath script_path ["rendered"; "kubeconfig.yaml"].

Lemma template_not_rendered : template_path <> rendered_path.
Proof.
  unfold template_path, rendered_path, joinpath.
  intros H. apply app_inv_head in H. discriminate H.
Qed.

(** The run in which the cluster is fetched, the template is read and
    compiled, and the output file can be opened. *)
Lemma setup_cluster_auth_file_run name project zone client w cluster s
    template nodes :
  get_cluster client (types.GetClusterRequest (cluster_path project zone name))
    (remote w) = (inr cluster, s) ->
  files w !! template_path = Some template ->
  jinja2.Template template = inr nodes ->
  rendered_path ∉ unwritable w ->
  let rendered := jinja2.render nodes (kubeconfig_vals name project zone cluster) in
  setup_cluster_auth_file script_path resolve name project zone client w =
    (inr (resolve rendered_path),
     mkWorld _ s (<[rendered_path := rendered]> (files w)) (unwritable w)
       (trace w ++ [Rpc_get_cluster (types.GetClusterRequest (cluster_path project zone name));
                    File_read_text template_path;
                    File_open_w rendered_path;
                    File_write rendered_path rendered])).
Proof.
  intros Hget Htpl Hcompile Hopen rendered.
  unfold setup_cluster_auth_file, bind.
  rewrite rpc_run. fold (cluster_path project zone name). rewrite Hget.
  unfold after_call. cbn [fst snd]. rewrite read_text_run.
  cbn [files remote unwritable trace].
  fold template_path rendered_path. rewrite Htpl, Hcompile.
  cbn [lift ret]. rewrite open_w_run. cbn [files remote unwritable trace].
  destruct (decide (rendered_path ∈ unwritable w)) as [Hin | _]; [done |].
  rewrite write_run. cbn [files remote unwritable trace ret].
  rewrite lookup_insert_eq, insert_insert_eq. cbn [default].
  change (EmptyString +:+ ?x) with x.
  rewrite <- !(assoc_L (++)). reflexivity.
Qed.

(** C2. [setup_cluster_auth_file] writes to [rendered/kubeconfig.yaml]
    beside the [templates] directory and returns that path (resolved); the
    file holds the template with every placeholder replaced by its value as
    it is, so it contains the CA certificate and the endpoint of the fetched
    cluster descriptor, character for character. *)
Theorem setup_cluster_auth_file_renders name project zone client w cluster s
    template nodes :
  get_cluster client (types.GetClusterRequest (cluster_path project zone name))
    (remote w) = (inr cluster, s) ->
  files w !! joinpath script_path ["templates"; "kubeconfig.yaml"] = Some template ->
  jinja2.Template template = inr nodes ->
  jinja2.Name "ca_cert" ∈ nodes ->
  jinja2.Name "endpoint" ∈ nodes ->
  joinpath script_path ["rendered"; "kubeconfig.yaml"] ∉ unwritable w ->
  let out := setup_cluster_auth_file script_path resolve name project zone client w in
  let vals := kubeconfig_vals name project zone cluster in
  out.1 = inr (resolve (joinpath script_path ["rendered"; "kubeconfig.yaml"]))
  /\ exists content,
       files out.2 !! joinpath script_path ["rendered"; "kubeconfig.yaml"] = Some content
       /\ content = jinja2.render nodes vals
       /\ contains content
            (MasterAuth.cluster_ca_certificate (Cluster.master_auth cluster)) = true
       /\ contains content (Cluster.endpoint cluster) = true
       /\ (forall x v, jinja2.Name x ∈ nodes -> vals !! x = Some v ->
             contains content v = true).
Proof.
  intros Hget Htpl Hcompile Hca Hep Hopen out vals. subst out.
  rewrite (setup_cluster_auth_file_run _ _ _ _ _ _ _ _ _ Hget Htpl Hcompile Hopen).
  cbn [fst snd files]. split; [reflexivity |].
  exists (jinja2.render nodes vals).
  split; [apply lookup_insert_eq |]. split; [reflexivity |].
  split; [| split].
  - by apply render_contains with (x := "ca_cert").
  - by apply render_contains with (x := "endpoint").
  - intros x v Hx Hv. by apply render_contains with (x := x).
Qed.

(** C9. The output file is opened for writing, so what it held before is
    gone: whatever the earlier contents, the file holds the rendered text.
    A second call that fetches the same descriptor and reads the same
    template leaves the same file contents and returns the same path. *)
Theorem setup_cluster_auth_file_overwrites name project zone client w cluster
    s1 s2 template nodes :
  get_cluster client (types.GetClusterRequest (cluster_path project zone name))
    (remote w) = (inr cluster, s1) ->
  get_cluster client (types.GetClusterRequest (cluster_path project zone name))
    s1 = (inr cluster, s2) ->
  files w !! joinpath script_path ["templates"; "kubeconfig.yaml"] = Some template ->
  jinja2.Template template = inr nodes ->
  joinpath script_path ["rendered"; "kubeconfig.yaml"] ∉ unwritable w ->
  let run := setup_cluster_auth_file script_path resolve name project zone client in
  let output := joinpath script_path ["rendered"; "kubeconfig.yaml"] in
  let rendered := jinja2.render nodes (kubeconfig_vals name project zone cluster) in
  (forall prior,
      files (run (with_file w output prior)).2 !! output = Some rendered
      /\ files (run (with_file w output prior)).2 = files (run w).2)
  /\ (run (run w).2).1 = (run w).1
  /\ files (run (run w).2).2 = files (run w).2
  /\ files (run (run w).2).2 !! output = Some rendered.
Proof.
  intros Hget1 Hget2 Htpl Hcompile Hopen run output rendered. subst run.
  rewrite (setup_cluster_auth_file_run _ _ _ _ _ _ _ _ _ Hget1 Htpl Hcompile Hopen).
  cbn [fst snd files]. fold output rendered. split; [| split; [| split]].
  - intros prior.
    assert (Htpl' : files (with_file w output prior)
                      !! joinpath script_path ["templates"; "kubeconfig.yaml"]
                    = Some template).
    { cbn [with_file files]. rewrite lookup_insert_ne; [exact Htpl |].
      intros H. symmetry in H. exact (template_not_rendered H). }
    rewrite (setup_cluster_auth_file_run _ _ _ _ (with_file w output prior)
               _ _ _ _ Hget1 Htpl' Hcompile Hopen).
    cbn [fst snd files with_file]. fold output rendered.
    split; [apply lookup_insert_eq | apply insert_insert_eq].
  - erewrite setup_cluster_auth_file_run; cbn [remote files unwritable];
      [reflexivity | exact Hget2 | | exact Hcompile | exact Hopen].
    rewrite lookup_insert_ne; [exact Htpl |].
    intros H. symmetry in H. exact (template_not_rendered H).
  - erewrite setup_cluster_auth_file_run; cbn [remote files unwritable];
      [| exact Hget2 | | exact Hcompile | exact Hopen].
    + cbn [snd files]. fold output rendered. apply insert_insert_eq.
    + rewrite lookup_insert_ne; [exact Htpl |].
      intros H. symmetry in H. exact (template_not_rendered H).
  - erewrite setup_cluster_auth_file_run; cbn [remote files unwritable];
      [| exact Hget2 | | exact Hcompile | exact Hopen].
    + cbn [snd files]. apply lookup_insert_eq.
    + rewrite lookup_insert_ne; [exact Htpl |].
      intros H. symmetry in H. exact (template_not_rendered H).
Qed.

(** C10. The cluster is fetched, the template read and rendered before the
    output file is opened: when the fetch, the read or the rendering fails,
    the function raises, no file has been opened or written, and every
    file, [rendered/kubeconfig.yaml] among them, is as it was. *)
Theorem setup_cluster_auth_file_failure_keeps_file name project zone client w :
  (exists e s,
      get_cluster client (types.GetClusterRequest (cluster_path project zone name))
        (remote w) = (inl e, s))
  \/ files w !! joinpath script_path ["templates"; "kubeconfig.yaml"] = None
  \/ (exists template e,
        files w !! joinpath script_path ["templates"; "kubeconfig.yaml"] = Some template
        /\ jinja2.Template template = inl e) ->
  let out := setup_cluster_auth_file script_path resolve name project zone client w in
  (exists e, out.1 = inl e)
  /\ files out.2 = files w
  /\ files out.2 !! joinpath script_path ["rendered"; "kubeconfig.yaml"]
       = files w !! joinpath script_path ["rendered"; "kubeconfig.yaml"]
  /\ exists evs,
       trace out.2 = trace w ++ evs
       /\ (forall p, File_open_w p ∉ evs)
       /\ (forall p data, File_write p data ∉ evs).
Proof.
  intros Hfail out. subst out.
  unfold setup_cluster_auth_file, bind.
  rewrite rpc_run. fold (cluster_path project zone name).
  destruct (get_cluster client _ (remote w)) as [[e | cluster] s] eqn:Hget;
    unfold after_call; cbn [fst snd].
  { cbn [files trace]. split; [by exists e |]. split; [reflexivity |].
    split; [reflexivity |]. eexists. split; [reflexivity |].
    split; intros; not_an_event. }
  rewrite read_text_run. cbn [files remote unwritable trace].
  destruct (files w !! joinpath script_path ["templates"; "kubeconfig.yaml"])
    as [template |] eqn:Htpl.
  2: { cbn [fst snd files trace]. split; [by eexists |]. split; [reflexivity |].
       split; [reflexivity |]. eexists. split; [by rewrite <- (assoc_L (++)) |].
       split; intros; not_an_event. }
  destruct (jinja2.Template template) as [e | nodes] eqn:Hcompile.
  { cbn [lift raise fst snd files trace]. split; [by exists e |].
    split; [reflexivity |]. split; [reflexivity |].
    eexists. split; [by rewrite <- (assoc_L (++)) |].
    split; intros; not_an_event. }
  exfalso. destruct Hfail as [(e & s' & H) | [H | (t & e & H1 & H2)]];
    [congruence | congruence |].
  assert (t = template) as -> by congruence. congruence.
Qed.

End Kubeconfig.

(** ** Errors *)

Section Errors.

Context {Remote : Type}.
Variable script_path : Path.
Variable resolve : Path -> Path.

Lemma execute_getitem_propagates (client : ComputeClient Remote) request key :
  propagates (Execute request) (execute client request)
    (let! response := request_execute client request in
     lift (py_getitem response key)).
Proof.
  intros w e s H. rewrite execute_getitem_run, H. reflexivity.
Qed.

Lemma rpc_propagates {A B} ev
    (method : types.Request -> Remote -> (exn + A) * Remote) request
    (k : A -> @M Remote B) :
  propagates (ev request) (method request)
    (let! a := rpc ev method request in k a).
Proof.
  intros w e s H. unfold bind. rewrite rpc_run, H. reflexivity.
Qed.

(** C5. Every function of the module lets the error of its remote call
    through: the result is that same exception, raised after the one
    request the function sends (nothing is retried, caught or replaced), and
    no file has been touched. *)
Theorem remote_errors_propagate (compute : ComputeClient Remote)
    (gke : ClusterManagerClient Remote)
    (name project zone machine_type : string) (node_count : Z) :
  propagates
    (Execute (globalAddresses_insert project (PDict [("name", PStr name)])))
    (execute compute (globalAddresses_insert project (PDict [("name", PStr name)])))
    (create_global_ip name project compute)
  /\ propagates
       (Execute (globalAddresses_delete project name))
       (execute compute (globalAddresses_delete project name))
       (delete_global_ip name project compute)
  /\ propagates
       (Execute (globalOperations_get project name))
       (execute compute (globalOperations_get project name))
       (compute_task_status name project compute)
  /\ propagates
       (Execute (globalAddresses_get project name))
       (execute compute (globalAddresses_get project name))
       (fetch_ip_address name project compute)
  /\ (exists cluster,
        let request :=
          types.CreateClusterRequest
            ("projects/" +:+ project +:+ "/locations/" +:+ zone) cluster in
        propagates (Rpc_create_cluster request) (create_cluster gke request)
          (setup_gke_cluster name project zone node_count machine_type gke))
  /\ propagates
       (Rpc_delete_cluster (types.DeleteClusterRequest (cluster_path project zone name)))
       (delete_cluster gke (types.DeleteClusterRequest (cluster_path project zone name)))
       (delete_gke_cluster name project zone gke)
  /\ propagates
       (Rpc_get_operation (types.GetOperationRequest (operation_path project zone name)))
       (get_operation gke (types.GetOperationRequest (operation_path project zone name)))
       (gke_task_status name project zone gke)
  /\ propagates
       (Rpc_get_cluster (types.GetClusterRequest (cluster_path project zone name)))
       (get_cluster gke (types.GetClusterRequest (cluster_path project zone name)))
       (setup_cluster_auth_file script_path resolve name project zone gke).
Proof.
  repeat split.
  - apply execute_getitem_propagates.
  - apply execute_getitem_propagates.
  - apply execute_getitem_propagates.
  - apply execute_getitem_propagates.
  - eexists. apply rpc_propagates.
  - apply rpc_propagates.
  - apply rpc_propagates.
  - apply rpc_propagates.
Qed.

End Errors.

(** ** Beyond the single answers: every run of the functions *)

Section EveryRun.

Context {Remote : Type}.
Variable script_path : Path.
Variable resolve : Path -> Path.
Implicit Types (compute : ComputeClient Remote) (gke : ClusterManagerClient Remote)
  (w : World Remote).

(** [delete_global_ip] sends exactly one request, the global-address delete
    of [name] under the project; it returns the [name] field of the answer as
    the handle and fails with the service's error when the service refuses. *)
Theorem delete_global_ip_one_delete name project compute w r s :
  execute compute (globalAddresses_delete project name) (remote w) = (r, s) ->
  let out := delete_global_ip name project compute w in
  trace out.2 = trace w ++ [Execute (globalAddresses_delete project name)]
  /\ remote out.2 = s
  /\ files out.2 = files w
  /\ (forall d handle,
        r = inr (PDict d) -> dict_get d "name" = Some handle -> out.1 = inr handle)
  /\ (forall e, r = inl e -> out.1 = inl e).
Proof.
  intros Hr out. subst out. unfold delete_global_ip.
  rewrite execute_getitem_run, Hr. simpl.
  repeat split; try reflexivity.
  - intros d handle -> Hd. by apply py_getitem_dict.
  - by intros e ->.
Qed.

Lemma execute_getitem_missing compute request key w d s :
  execute compute request (remote w) = (inr (PDict d), s) ->
  dict_get d key = None ->
  (let! response := request_execute compute request in
   lift (py_getitem response key)) w
  = (inl (KeyError key), after_call w s (Execute request)).
Proof.
  intros Hr Hd. rewrite execute_getitem_run, Hr. simpl. by rewrite Hd.
Qed.

(** When the service answers with a descriptor that lacks the field a Compute
    wrapper reads, the wrapper raises [KeyError] for that field; the request
    has been sent and what it did on the service stays done. *)
Theorem missing_field_raises_KeyError name project compute w d s :
  (execute compute (globalAddresses_insert project (PDict [("name", PStr name)]))
     (remote w) = (inr (PDict d), s) ->
   dict_get d "name" = None ->
   create_global_ip name project compute w
   = (inl (KeyError "name"),
      after_call w s
        (Execute (globalAddresses_insert project (PDict [("name", PStr name)])))))
  /\ (execute compute (globalAddresses_delete project name) (remote w)
        = (inr (PDict d), s) ->
      dict_get d "name" = None ->
      delete_global_ip name project compute w
      = (inl (KeyError "name"),
         after_call w s (Execute (globalAddresses_delete project name))))
  /\ (execute compute (globalOperations_get project name) (remote w)
        = (inr (PDict d), s) ->
      dict_get d "status" = None ->
      compute_task_status name project compute w
      = (inl (KeyError "status"),
         after_call w s (Execute (globalOperations_get project name))))
  /\ (execute compute (globalAddresses_get project name) (remote w)
        = (inr (PDict d), s) ->
      dict_get d "address" = None ->
      fetch_ip_address name project compute w
      = (inl (KeyError "address"),
         after_call w s (Execute (globalAddresses_get project name)))).
Proof.
  repeat split; intros Hr Hd; by apply (execute_getitem_missing _ _ _ _ d).
Qed.

Lemma execute_getitem_one_request compute request key :
  one_request (Execute request)
    (let! response := request_execute compute request in
     lift (py_getitem response key)).
Proof.
  intros w. rewrite execute_getitem_run. repeat split.
Qed.

Lemma rpc_one_request {A B} ev
    (method : types.Request -> Remote -> (exn + A) * Remote) request (f : A -> B) :
  one_request (ev request) (let! a := rpc ev method request in ret (f a)).
Proof.
  intros w. unfold bind. rewrite rpc_run.
  destruct (method request (remote w)) as [[e | a] s]; repeat split.
Qed.

(** Each of the seven functions that only talk to the service sends exactly
    one request in every run, whether the service answers, refuses or answers
    with something unexpected, and never touches a local file. *)
Theorem remote_wrappers_send_one_request compute gke
    (name project zone machine_type : string) (node_count : Z) :
  one_request (Execute (globalAddresses_insert project (PDict [("name", PStr name)])))
    (create_global_ip name project compute)
  /\ one_request (Execute (globalAddresses_delete project name))
       (delete_global_ip name project compute)
  /\ one_request (Execute (globalOperations_get project name))
       (compute_task_status name project compute)
  /\ one_request (Execute (globalAddresses_get project name))
       (fetch_ip_address name project compute)
  /\ (exists cluster,
        one_request
          (Rpc_create_cluster
             (types.CreateClusterRequest
                ("projects/" +:+ project +:+ "/locations/" +:+ zone) cluster))
          (setup_gke_cluster name project zone node_count machine_type gke))
  /\ one_request
       (Rpc_delete_cluster (types.DeleteClusterRequest (cluster_path project zone name)))
       (delete_gke_cluster name project zone gke)
  /\ one_request
       (Rpc_get_operation (types.GetOperationRequest (operation_path project zone name)))
       (gke_task_status name project zone gke).
Proof.
  refine (conj _ (conj _ (conj _ (conj _ (conj _ (conj _ _)))))).
  - apply execute_getitem_one_request.
  - apply execute_getitem_one_request.
  - apply execute_getitem_one_request.
  - apply execute_getitem_one_request.
  - eexists. apply (rpc_one_request Rpc_create_cluster).
  - apply (rpc_one_request Rpc_delete_cluster).
  - apply (rpc_one_request Rpc_get_operation _ _ (fun a => a)).
Qed.

End EveryRun.

(** ** Every run of the kubeconfig rendering *)

Section KubeconfigRuns.

Context {Remote : Type}.
Variable script_path : Path.
Variable resolve : Path -> Path.
Implicit Types (gke : ClusterManagerClient Remote) (w : World Remote).

(** The four ways a run can go, each with the world it leaves. *)
Lemma setup_cluster_auth_file_cases name project zone gke w :
  let request := types.GetClusterRequest (cluster_path project zone name) in
  let template_path := joinpath script_path ["templates"; "kubeconfig.yaml"] in
  let output := joinpath script_path ["rendered"; "kubeconfig.yaml"] in
  let after s fs evs :=
    mkWorld _ s fs (unwritable w) (trace w ++ Rpc_get_cluster request :: evs) in
  setup_cluster_auth_file script_path resolve name project zone gke w =
    match get_cluster gke request (remote w) with
    | (inl e, s) => (inl e, after s (files w) [])
    | (inr cluster, s) =>
        match files w !! template_path with
        | None =>
            (inl (OSError template_path),
             after s (files w) [File_read_text template_path])
        | Some template =>
            match jinja2.Template template with
            | inl e => (inl e, after s (files w) [File_read_text template_path])
            | inr nodes =>
                let rendered :=
                  jinja2.render nodes (kubeconfig_vals name project zone cluster) in
                if decide (output ∈ unwritable w)
                then (inl (OSError output),
                      after s (files w)
                        [File_read_text template_path; File_open_w output])
                else (inr (resolve output),
                      after s (<[output := rendered]> (files w))
                        [File_read_text template_path; File_open_w output;
                         File_write output rendered])
            end
        end
    end.
Proof.
  intros request template_path output after. subst after.
  unfold setup_cluster_auth_file, bind.
  rewrite rpc_run. fold (cluster_path project zone name). fold request.
  destruct (get_cluster gke request (remote w)) as [[e | cluster] s];
    unfold after_call; cbn [fst snd]; [reflexivity |].
  rewrite read_text_run. cbn [files remote unwritable trace].
  fold template_path output.
  destruct (files w !! template_path) as [template |];
    [| by rewrite <- (assoc_L (++))].
  destruct (jinja2.Template template) as [e | nodes];
    cbn [lift raise ret]; [by rewrite <- (assoc_L (++)) |].
  rewrite open_w_run. cbn [files remote unwritable trace].
  destruct (decide (output ∈ unwritable w)); [by rewrite <- !(assoc_L (++)) |].
  rewrite write_run. cbn [files remote unwritable trace ret].
  rewrite lookup_insert_eq, insert_insert_eq. cbn [default].
  change (EmptyString +:+ ?x) with x.
  by rewrite <- !(assoc_L (++)).
Qed.

(** When the output file cannot be opened for writing, the function raises
    the [OSError] of that path after the fetch and the template read; nothing
    has been written and every file is as it was. *)
Theorem setup_cluster_auth_file_unwritable name project zone gke w cluster s
    template nodes :
  get_cluster gke (types.GetClusterRequest (cluster_path project zone name))
    (remote w) = (inr cluster, s) ->
  files w !! joinpath script_path ["templates"; "kubeconfig.yaml"] = Some template ->
  jinja2.Template template = inr nodes ->
  joinpath script_path ["rendered"; "kubeconfig.yaml"] ∈ unwritable w ->
  setup_cluster_auth_file script_path resolve name project zone gke w
  = (inl (OSError (joinpath script_path ["rendered"; "kubeconfig.yaml"])),
     mkWorld _ s (files w) (unwritable w)
       (trace w ++
          [Rpc_get_cluster (types.GetClusterRequest (cluster_path project zone name));
           File_read_text (joinpath script_path ["templates"; "kubeconfig.yaml"]);
           File_open_w (joinpath script_path ["rendered"; "kubeconfig.yaml"])])).
Proof.
  intros Hget Htpl Hcompile Hin.
  rewrite setup_cluster_auth_file_cases. cbv zeta.
  rewrite Hget, Htpl, Hcompile.
  destruct (decide (joinpath script_path ["rendered"; "kubeconfig.yaml"] ∈ unwritable w));
    [reflexivity | done].
Qed.

(** The only file the function ever changes is [rendered/kubeconfig.yaml]:
    in every run any other path, the template among them, keeps its
    contents. *)
Theorem setup_cluster_auth_file_frame name project zone gke w p :
  p <> joinpath script_path ["rendered"; "kubeconfig.yaml"] ->
  let out := setup_cluster_auth_file script_path resolve name project zone gke w in
  files out.2 !! p = files w !! p
  /\ unwritable out.2 = unwritable w.
Proof.
  intros Hp out. subst out.
  rewrite setup_cluster_auth_file_cases. cbv zeta.
  destruct (get_cluster gke _ (remote w)) as [[e | cluster] s]; [done |].
  destruct (files w !! joinpath script_path ["templates"; "kubeconfig.yaml"])
    as [template |]; [| done].
  destruct (jinja2.Template template) as [e | nodes]; [done |].
  destruct (decide (_ ∈ unwritable w)); [done |].
  cbn [snd files unwritable]. split; [| reflexivity].
  by rewrite lookup_insert_ne.
Qed.

(** The steps of a run come in one order.  A run that does not reach the
    write raises and leaves every file as it was, having got no further than
    the fetch, the template read or the refused open; any other run went
    through the fetch, the read, the open and one write, in that order. *)
Theorem setup_cluster_auth_file_event_order name project zone gke w :
  let out := setup_cluster_auth_file script_path resolve name project zone gke w in
  let fetch :=
    Rpc_get_cluster (types.GetClusterRequest (cluster_path project zone name)) in
  let read := File_read_text (joinpath script_path ["templates"; "kubeconfig.yaml"]) in
  let output := joinpath script_path ["rendered"; "kubeconfig.yaml"] in
  (exists e,
      out.1 = inl e
      /\ files out.2 = files w
      /\ (trace out.2 = trace w ++ [fetch]
          \/ trace out.2 = trace w ++ [fetch; read]
          \/ trace out.2 = trace w ++ [fetch; read; File_open_w output]))
  \/ (exists data,
        trace out.2
        = trace w ++ [fetch; read; File_open_w output; File_write output data]).
Proof.
  intros out fetch read output. subst out.
  rewrite setup_cluster_auth_file_cases. cbv zeta.
  destruct (get_cluster gke _ (remote w)) as [[e | cluster] s].
  { left. exists e. cbn [fst snd files trace]. auto. }
  destruct (files w !! joinpath script_path ["templates"; "kubeconfig.yaml"])
    as [template |].
  2: { left. eexists. cbn [fst snd files trace]. auto. }
  destruct (jinja2.Template template) as [e | nodes].
  { left. exists e. cbn [fst snd files trace]. auto. }
  destruct (decide (_ ∈ unwritable w)).
  { left. eexists. cbn [fst snd files trace]. auto 6. }
  right. eexists. cbn [snd trace]. reflexivity.
Qed.

(** A normal return is never a stale or partial result: the cluster was
    fetched, the template was there and compiled, and the output file holds
    the rendering of that template with that cluster's values. *)
Theorem setup_cluster_auth_file_return_sound name project zone gke w p :
  (setup_cluster_auth_file script_path resolve name project zone gke w).1 = inr p ->
  let out := setup_cluster_auth_file script_path resolve name project zone gke w in
  p = resolve (joinpath script_path ["rendered"; "kubeconfig.yaml"])
  /\ exists cluster template nodes,
       get_cluster gke (types.GetClusterRequest (cluster_path project zone name))
         (remote w) = (inr cluster, remote out.2)
       /\ files w !! joinpath script_path ["templates"; "kubeconfig.yaml"] = Some template
       /\ jinja2.Template template = inr nodes
       /\ files out.2 !! joinpath script_path ["rendered"; "kubeconfig.yaml"]
          = Some (jinja2.render nodes (kubeconfig_vals name project zone cluster)).
Proof.
  intros Hret out. subst out. revert Hret.
  rewrite setup_cluster_auth_file_cases. cbv zeta.
  destruct (get_cluster gke _ (remote w)) as [[e | cluster] s]; [done |].
  destruct (files w !! joinpath script_path ["templates"; "kubeconfig.yaml"])
    as [template |] eqn:Htpl; [| done].
  destruct (jinja2.Template template) as [e | nodes] eqn:Hcompile; [done |].
  destruct (decide (_ ∈ unwritable w)); [done |].
  cbn [fst snd files remote]. intros [= <-]. split; [reflexivity |].
  exists cluster, template, nodes.
  repeat split; [exact Hcompile | apply lookup_insert_eq].
Qed.

End KubeconfigRuns.

(** ** Resource paths *)

Section Addressing.

Context {Remote : Type}.
Variable script_path : Path.
Variable resolve : Path -> Path.
Implicit Types (gke : ClusterManagerClient Remote) (w : World Remote).

(** The cluster functions agree on names: the cluster that
    [setup_gke_cluster] asks for under a parent with the name [name] is the
    resource that [delete_gke_cluster] and [setup_cluster_auth_file] address,
    [parent/clusters/name], and [gke_task_status] looks a handle up under the
    same parent. *)
Theorem cluster_functions_address_one_resource name project zone node_count
    machine_type handle gke w :
  let parent := "projects/" +:+ project +:+ "/locations/" +:+ zone in
  (exists cluster,
      trace (setup_gke_cluster name project zone node_count machine_type gke w).2
        !! length (trace w)
      = Some (Rpc_create_cluster (types.CreateClusterRequest parent cluster))
      /\ py_getitem cluster "name" = inr (PStr name))
  /\ trace (delete_gke_cluster name project zone gke w).2 !! length (trace w)
     = Some (Rpc_delete_cluster
               (types.DeleteClusterRequest (parent +:+ "/clusters/" +:+ name)))
  /\ trace (setup_cluster_auth_file script_path resolve name project zone gke w).2
       !! length (trace w)
     = Some (Rpc_get_cluster
               (types.GetClusterRequest (parent +:+ "/clusters/" +:+ name)))
  /\ trace (gke_task_status handle project zone gke w).2 !! length (trace w)
     = Some (Rpc_get_operation
               (types.GetOperationRequest (parent +:+ "/operations/" +:+ handle))).
Proof.
  intros parent. subst parent. rewrite !string_app_assoc.
  refine (conj _ (conj _ (conj _ _))).
  - eexists. split.
    + unfold setup_gke_cluster. rewrite rpc_name_run. cbn [snd after_call trace].
      apply list_lookup_middle. reflexivity.
    + reflexivity.
  - unfold delete_gke_cluster. rewrite rpc_name_run. cbn [snd after_call trace].
    apply list_lookup_middle. reflexivity.
  - rewrite setup_cluster_auth_file_cases. cbv zeta.
    destruct (get_cluster gke _ (remote w)) as [[e | cluster] s];
      [cbn [snd trace]; by apply list_lookup_middle |].
    destruct (files w !! _) as [template |];
      [| cbn [snd trace]; by apply list_lookup_middle].
    destruct (jinja2.Template template) as [e | nodes];
      [cbn [snd trace]; by apply list_lookup_middle |].
    destruct (decide (_ ∈ unwritable w));
      cbn [snd trace]; by apply list_lookup_middle.
  - unfold gke_task_status, bind. rewrite rpc_run.
    destruct (get_operation gke _ (remote w)) as [[e | op] s];
      cbn [fst snd after_call trace ret]; by apply list_lookup_middle.
Qed.

Lemma split_at_slash a a' r r' :
  no_slash a = true -> no_slash a' = true ->
  a +:+ String "/" r = a' +:+ String "/" r' -> a = a' /\ r = r'.
Proof.
  revert a'. induction a as [| c a IH]; intros [| c' a'] Ha Ha' H.
  - injection H as ->. done.
  - injection H as <- _. discriminate Ha'.
  - injection H as -> _. discriminate Ha.
  - injection H as -> H.
    cbn [no_slash] in Ha, Ha'.
    apply andb_true_iff in Ha as [_ Ha]. apply andb_true_iff in Ha' as [_ Ha'].
    destruct (IH a' Ha Ha' H) as [-> ->]. done.
Qed.

Lemma cluster_path_inj project zone name project' zone' name' :
  no_slash project = true -> no_slash zone = true ->
  no_slash project' = true -> no_slash zone' = true ->
  cluster_path project zone name = cluster_path project' zone' name' ->
  project = project' /\ zone = zone' /\ name = name'.
Proof.
  intros Hp Hz Hp' Hz' H. unfold cluster_path in H.
  apply (inj (String.append "projects/")) in H.
  change ("/locations/" +:+ ?r) with (String "/" ("locations/" +:+ r)) in H.
  apply split_at_slash in H as [-> H]; [| done | done].
  apply (inj (String.append "locations/")) in H.
  change ("/clusters/" +:+ ?r) with (String "/" ("clusters/" +:+ r)) in H.
  apply split_at_slash in H as [-> H]; [| done | done].
  apply (inj (String.append "clusters/")) in H. by subst.
Qed.

(** With no [/] in the project and the zone, two deletions send the same
    request only for the same project, zone and cluster name: no two clusters
    share a resource path. *)
Theorem delete_gke_cluster_requests_distinct name project zone name' project'
    zone' gke w :
  no_slash project = true -> no_slash zone = true ->
  no_slash project' = true -> no_slash zone' = true ->
  trace (delete_gke_cluster name project zone gke w).2
    = trace (delete_gke_cluster name' project' zone' gke w).2 ->
  project = project' /\ zone = zone' /\ name = name'.
Proof.
  intros Hp Hz Hp' Hz'. unfold delete_gke_cluster.
  rewrite !rpc_name_run. cbn [snd after_call trace].
  intros H. apply app_inv_head in H.
  apply cluster_path_inj; try done. unfold cluster_path. congruence.
Qed.

End Addressing.

(** ** The functions at work on the small cloud *)

Module Checks.

Import Scenario.

Lemma create_global_ip_one_insert_witness :
  execute compute (globalAddresses_insert "proj" (PDict [("name", PStr "ip1")]))
    (remote world)
    = (inr (operation "operation-insert-ip1" "RUNNING"),
       mkCloud ["ip1"; "ip0"] (clusters cloud))
  /\ (create_global_ip "ip1" "proj" compute world).1
       = inr (PStr "operation-insert-ip1")
  /\ trace (create_global_ip "ip1" "proj" compute world).2
       = [Execute (globalAddresses_insert "proj" (PDict [("name", PStr "ip1")]))].
Proof.
  assert (H : execute compute
                (globalAddresses_insert "proj" (PDict [("name", PStr "ip1")]))
                (remote world)
              = (inr (operation "operation-insert-ip1" "RUNNING"),
                 mkCloud ["ip1"; "ip0"] (clusters cloud))) by reflexivity.
  split; [exact H |].
  destruct (create_global_ip_one_insert "ip1" "proj" compute world _ _ H)
    as (Htrace & _ & _ & Hname & _).
  split; [| exact Htrace].
  eapply Hname; reflexivity.
Defined.

Lemma compute_task_status_verbatim_witness :
  (compute_task_status "operation-insert-ip1" "proj" compute world).1
    = inr (PStr "DONE")
  /\ (compute_task_status "operation-insert-ip1" "proj" odd_compute world).1
       = inr (PStr "ABORTED").
Proof.
  split.
  - refine (proj1 (proj2 (compute_task_status_verbatim
      "operation-insert-ip1" "proj" compute world
      [("name", PStr "operation-insert-ip1"); ("status", PStr "DONE")]
      (PStr "DONE") cloud _ _))); reflexivity.
  - refine (proj1 (proj2 (compute_task_status_verbatim
      "operation-insert-ip1" "proj" odd_compute world
      [("name", PStr "op"); ("status", PStr "ABORTED")]
      (PStr "ABORTED") cloud _ _))); reflexivity.
Defined.

Lemma fetch_ip_address_value_or_error_witness :
  (fetch_ip_address "ip0" "proj" compute world).1 = inr (PStr "34.120.7.21")
  /\ (fetch_ip_address "ip1" "proj" compute world).1
       = inl (HttpError 404 "notFound").
Proof.
  split.
  - refine (proj1 (proj2 (fetch_ip_address_value_or_error
      "ip0" "proj" compute world _ cloud _)) _ _ _ _); reflexivity.
  - refine (proj2 (proj2 (fetch_ip_address_value_or_error
      "ip1" "proj" compute world _ cloud _)) _ _ _); reflexivity.
Defined.

Lemma gke_task_status_as_provided_witness :
  (gke_task_status "operation-create-1" "p" "us-central1-a" gke world).1
    = inr (Operation.mk
             "projects/p/locations/us-central1-a/operations/operation-create-1"
             Status.DONE "Deploying").
Proof.
  refine (proj1 (proj2 (gke_task_status_as_provided
    "operation-create-1" "p" "us-central1-a" gke world _ cloud _)));
    reflexivity.
Defined.

(** The creation request for three [e2-standard-4] nodes. *)
Example setup_gke_cluster_lt :
  setup_gke_cluster "lt2" "p" "us-central1-a" 3 "e2-standard-4" gke world
  = (inr "operation-create-1",
     mkWorld _
       (mkCloud ["ip0"] ["projects/p/locations/us-central1-a/clusters/lt2";
                         "projects/p/locations/us-central1-a/clusters/lt"])
       (files world) ∅
       [Rpc_create_cluster
          (types.CreateClusterRequest "projects/p/locations/us-central1-a"
             (PDict [
                ("name", PStr "lt2");
                ("release_channel", PDict [("channel", PStr "REGULAR")]);
                ("node_pools", PList [
                   PDict [
                     ("name", PStr "load-test-pool");
                     ("initial_node_count", PInt 3);
                     ("config", PDict [
                        ("machine_type", PStr "e2-standard-4");
                        ("oauth_scopes", PList [
                           PStr "https://www.googleapis.com/auth/cloud-platform"])])]])]))]).
Proof. reflexivity. Qed.

Example delete_gke_cluster_lt :
  delete_gke_cluster "lt" "p" "us-central1-a" gke world
  = (inr "operation-delete-1",
     mkWorld _ (mkCloud ["ip0"] []) (files world) ∅
       [Rpc_delete_cluster
          (types.DeleteClusterRequest
             "projects/p/locations/us-central1-a/clusters/lt")]).
Proof. reflexivity. Qed.

Lemma template_compiles : jinja2.Template kubeconfig_template = inr kubeconfig_nodes.
Proof. vm_compute. reflexivity. Defined.

Lemma output_writable : rendered_path ∉ unwritable world.
Proof. apply not_elem_of_empty. Defined.

Lemma cluster_fetched :
  get_cluster gke (types.GetClusterRequest (cluster_path "p" "us-central1-a" "lt"))
    cloud
  = (inr (Cluster.mk (MasterAuth.mk "LS0tLS1CRUdJTiBDRVJUSUZJQ0FURS0tLS0t")
            "35.224.10.4"), cloud).
Proof. reflexivity. Defined.

Lemma template_in_place : files world !! template_path = Some kubeconfig_template.
Proof. apply lookup_singleton_eq. Defined.

Lemma setup_cluster_auth_file_renders_witness :
  let out :=
    setup_cluster_auth_file script_path resolve "lt" "p" "us-central1-a" gke world in
  out.1 = inr ["/"; "srv"; "nuke_from_orbit"; "utils"; "rendered"; "kubeconfig.yaml"]
  /\ exists content,
       files out.2 !! rendered_path = Some content
       /\ contains content "LS0tLS1CRUdJTiBDRVJUSUZJQ0FURS0tLS0t" = true
       /\ contains content "35.224.10.4" = true.
Proof.
  destruct (setup_cluster_auth_file_renders script_path resolve
              "lt" "p" "us-central1-a" gke world _ cloud
              kubeconfig_template kubeconfig_nodes
              cluster_fetched template_in_place template_compiles)
    as (Hpath & content & Hfile & _ & Hca & Hep & _).
  - apply (bool_decide_unpack _). vm_compute. exact I.
  - apply (bool_decide_unpack _). vm_compute. exact I.
  - exact output_writable.
  - split; [exact Hpath |]. exists content. repeat split; assumption.
Defined.

Lemma setup_cluster_auth_file_overwrites_witness :
  let run := setup_cluster_auth_file script_path resolve "lt" "p" "us-central1-a" gke in
  files (run (with_file world rendered_path "old kubeconfig")).2
    = files (run world).2
  /\ (run (run world).2).1 = (run world).1
  /\ files (run (run world).2).2 = files (run world).2.
Proof.
  destruct (setup_cluster_auth_file_overwrites script_path resolve
              "lt" "p" "us-central1-a" gke world _ cloud cloud
              kubeconfig_template kubeconfig_nodes
              cluster_fetched cluster_fetched template_in_place
              template_compiles output_writable)
    as (Hprior & Hpath & Hfiles & _).
  split; [exact (proj2 (Hprior "old kubeconfig")) |].
  split; assumption.
Defined.

Lemma template_missing :
  files (world_with_old_file None)
    !! joinpath script_path ["templates"; "kubeconfig.yaml"] = None.
Proof. vm_compute. reflexivity. Defined.

Lemma broken_template_in_place :
  files (world_with_old_file (Some broken_template))
    !! joinpath script_path ["templates"; "kubeconfig.yaml"] = Some broken_template.
Proof. vm_compute. reflexivity. Defined.

Lemma broken_template_fails :
  jinja2.Template broken_template
    = inl (TemplateSyntaxError "unexpected end of template").
Proof. vm_compute. reflexivity. Defined.

Lemma setup_cluster_auth_file_failure_keeps_file_witness :
  (* the cluster is unknown to the service *)
  files (setup_cluster_auth_file script_path resolve "nope" "p" "us-central1-a" gke
           (world_with_old_file (Some kubeconfig_template))).2 !! rendered_path
    = Some "old kubeconfig"
  (* the template is missing *)
  /\ files (setup_cluster_auth_file script_path resolve "lt" "p" "us-central1-a" gke
              (world_with_old_file None)).2 !! rendered_path
       = Some "old kubeconfig"
  (* the template does not compile *)
  /\ files (setup_cluster_auth_file script_path resolve "lt" "p" "us-central1-a" gke
              (world_with_old_file (Some broken_template))).2 !! rendered_path
       = Some "old kubeconfig".
Proof.
  split; [| split].
  - refine (eq_trans (proj1 (proj2 (proj2 (setup_cluster_auth_file_failure_keeps_file
      script_path resolve "nope" "p" "us-central1-a" gke
      (world_with_old_file (Some kubeconfig_template))
      (or_introl (ex_intro _ (GoogleAPICallError 404 "NotFound")
                    (ex_intro _ cloud eq_refl))))))) _).
    vm_compute. reflexivity.
  - refine (eq_trans (proj1 (proj2 (proj2 (setup_cluster_auth_file_failure_keeps_file
      script_path resolve "lt" "p" "us-central1-a" gke
      (world_with_old_file None)
      (or_intror (or_introl template_missing)))))) _).
    vm_compute. reflexivity.
  - refine (eq_trans (proj1 (proj2 (proj2 (setup_cluster_auth_file_failure_keeps_file
      script_path resolve "lt" "p" "us-central1-a" gke
      (world_with_old_file (Some broken_template))
      (or_intror (or_intror
         (ex_intro _ broken_template
            (ex_intro _ (TemplateSyntaxError "unexpected end of template")
               (conj broken_template_in_place broken_template_fails))))))))) _).
    vm_compute. reflexivity.
Defined.

Lemma remote_errors_propagate_witness :
  create_global_ip "ip0" "proj" compute world
    = (inl (HttpError 409 "alreadyExists"),
       after_call world cloud
         (Execute (globalAddresses_insert "proj" (PDict [("name", PStr "ip0")]))))
  /\ delete_gke_cluster "nope" "p" "us-central1-a" gke world
       = (inl (GoogleAPICallError 404 "NotFound"),
          after_call world cloud
            (Rpc_delete_cluster
               (types.DeleteClusterRequest
                  (cluster_path "p" "us-central1-a" "nope")))).
Proof.
  pose proof (remote_errors_propagate script_path resolve compute gke
                "ip0" "proj" "us-central1-a" "e2-standard-4" 3) as Hc.
  pose proof (remote_errors_propagate script_path resolve compute gke
                "nope" "p" "us-central1-a" "e2-standard-4" 3) as Hg.
  split.
  - apply (proj1 Hc). reflexivity.
  - apply (proj1 (proj2 (proj2 (proj2 (proj2 (proj2 Hg)))))). reflexivity.
Defined.

End Checks.

(** ** Further runs on the small cloud *)

Module FurtherChecks.

Import Scenario.

Lemma delete_global_ip_one_delete_witness :
  (delete_global_ip "ip0" "proj" compute world).1
    = inr (PStr "operation-delete-ip0")
  /\ (delete_global_ip "ip1" "proj" compute world).1
       = inl (HttpError 404 "notFound").
Proof.
  split.
  - refine (proj1 (proj2 (proj2 (proj2 (delete_global_ip_one_delete
      "ip0" "proj" compute world _ (mkCloud [] (clusters cloud)) _)))) _ _ _ _);
      reflexivity.
  - refine (proj2 (proj2 (proj2 (proj2 (delete_global_ip_one_delete
      "ip1" "proj" compute world _ cloud _)))) _ _); reflexivity.
Defined.

Lemma missing_field_raises_KeyError_witness :
  fetch_ip_address "ip0" "proj" odd_compute world
  = (inl (KeyError "address"),
     after_call world cloud (Execute (globalAddresses_get "proj" "ip0"))).
Proof.
  refine (proj2 (proj2 (proj2 (missing_field_raises_KeyError
    "ip0" "proj" odd_compute world
    [("name", PStr "op"); ("status", PStr "ABORTED")] cloud))) _ _);
    reflexivity.
Defined.

Lemma read_only_output : rendered_path ∈ unwritable ReadOnly.world.
Proof. apply elem_of_singleton. reflexivity. Defined.

Lemma read_only_template :
  files ReadOnly.world !! joinpath script_path ["templates"; "kubeconfig.yaml"]
  = Some kubeconfig_template.
Proof. vm_compute. reflexivity. Defined.

Lemma setup_cluster_auth_file_unwritable_witness :
  (setup_cluster_auth_file script_path resolve "lt" "p" "us-central1-a" gke
     ReadOnly.world).1 = inl (OSError rendered_path)
  /\ files (setup_cluster_auth_file script_path resolve "lt" "p" "us-central1-a" gke
              ReadOnly.world).2 !! rendered_path = Some "old kubeconfig".
Proof.
  rewrite (setup_cluster_auth_file_unwritable script_path resolve
             "lt" "p" "us-central1-a" gke ReadOnly.world _ cloud
             kubeconfig_template kubeconfig_nodes
             Checks.cluster_fetched read_only_template Checks.template_compiles
             read_only_output).
  split; [reflexivity | vm_compute; reflexivity].
Defined.

Lemma template_is_not_output :
  template_path <> joinpath script_path ["rendered"; "kubeconfig.yaml"].
Proof. discriminate. Defined.

Lemma setup_cluster_auth_file_frame_witness :
  files (setup_cluster_auth_file script_path resolve "lt" "p" "us-central1-a" gke
           world).2 !! template_path
  = files world !! template_path.
Proof.
  exact (proj1 (setup_cluster_auth_file_frame script_path resolve
                  "lt" "p" "us-central1-a" gke world template_path
                  template_is_not_output)).
Defined.

Lemma setup_cluster_auth_file_return_sound_witness :
  exists cluster nodes,
    jinja2.Template kubeconfig_template = inr nodes
    /\ files (setup_cluster_auth_file script_path resolve "lt" "p" "us-central1-a"
                gke world).2 !! rendered_path
       = Some (jinja2.render nodes (kubeconfig_vals "lt" "p" "us-central1-a" cluster)).
Proof.
  destruct (setup_cluster_auth_file_return_sound script_path resolve
              "lt" "p" "us-central1-a" gke world rendered_path)
    as (_ & cluster & template & nodes & _ & Htpl & Hcompile & Hfile).
  - vm_compute. reflexivity.
  - exists cluster, nodes. split; [| exact Hfile].
    rewrite <- Hcompile. f_equal.
    pose proof Checks.template_in_place as Hin. unfold template_path in Hin.
    congruence.
Defined.

Lemma delete_gke_cluster_requests_distinct_witness :
  trace (delete_gke_cluster "lt" "p" "us-central1-a" gke world).2
  = trace (delete_gke_cluster "lt" "p" "us-central1-a" gke world).2
  /\ ("p" = "p" /\ "us-central1-a" = "us-central1-a" /\ "lt" = "lt").
Proof.
  split; [reflexivity |].
  apply (delete_gke_cluster_requests_distinct "lt" "p" "us-central1-a"
           "lt" "p" "us-central1-a" gke world); reflexivity.
Defined.

(** Nothing is escaped: with a [/] in the zone, two different clusters get
    one resource path. *)
Example cluster_path_collision :
  cluster_path "p" "z/clusters/a" "b" = cluster_path "p" "z" "a/clusters/b".
Proof. reflexivity. Qed.

End FurtherChecks.

(** ** Where the service decides *)

Module Refutations.

(** A provider status outside PENDING, RUNNING, DONE is handed to the caller
    as an ordinary result; no error is raised for it. *)
Lemma compute_task_status_foreign_value :
  (compute_task_status "operation-insert-ip1" "proj" Scenario.odd_compute
     Scenario.world).1 = inr (PStr "ABORTED")
  /\ PStr "ABORTED" ∉ compute_statuses.
Proof.
  split; [reflexivity |]. unfold compute_statuses. not_an_event.
Qed.

(** The address read before its insert operation is DONE: the function has
    no readiness test, so on a service that answers the read it does not fail
    with a remote error.  It raises a local [KeyError] when the descriptor
    has no address yet, and returns the address when the descriptor has
    one. *)
Lemma fetch_ip_address_before_done :
  (compute_task_status "operation-insert-ip1" "proj" Provisioning.compute
     Provisioning.world).1 = inr (PStr "RUNNING")
  /\ (fetch_ip_address "ip1" "proj" Provisioning.compute Provisioning.world).1
     = inl (KeyError "address")
  /\ (forall status reason,
        (fetch_ip_address "ip1" "proj" Provisioning.compute Provisioning.world).1
        <> inl (HttpError status reason))
  /\ (compute_task_status "operation-insert-ip1" "proj" Provisioning.eager_compute
        Provisioning.world).1 = inr (PStr "RUNNING")
  /\ (fetch_ip_address "ip1" "proj" Provisioning.eager_compute Provisioning.world).1
     = inr (PStr "34.120.7.21").
Proof.
  repeat split. intros status reason H. discriminate H.
Qed.

End Refutations.
